(** * Forward kinematics of the hexapod model (hexapod/models.py)

    A shallow embedding of [hexapod/models.py] over the real numbers:
    the homogeneous frames, [Point], [Linkage], [Hexagon] and
    [VirtualHexapod], with the ground-contact heuristic.

    numpy's floating-point numbers are read as real numbers, [np.cos]
    and [np.sin] as [cos] and [sin], and [np.radians] as the
    multiplication by [PI / 180]. *)

From Stdlib Require Import Reals Lra Lia RNsatz List String Permutation Sorted.
From ExtLib Require Import Structures.Monad Structures.MonadExc.
From ExtLib Require Import Data.Monads.EitherMonad.
Import ListNotations.
Import MonadNotation.

Local Open Scope R_scope.
Local Open Scope monad_scope.

(* ================================================================= *)
(** ** Exceptions *)

(** The exceptions of the interface.  [IndexError] is Python's own,
    raised by a subscript out of range; the other two are the ones the
    interface names for rejected measurements and angles. *)
Inductive exn : Type :=
| InvalidMeasurement
| InvalidAngle
| IndexError.

(** A call either raises ([inl]) or returns ([inr]). *)
Abbreviation result := (sum exn).

(** [xs[i]] on a Python list. *)
Definition subscript {A : Type} (xs : list A) (i : nat) : result A :=
  match nth_error xs i with
  | Some v => ret v
  | None => raise IndexError
  end.

(* ================================================================= *)
(** ** 4x4 arrays *)

(** A one-dimensional array of four numbers. *)
Record vec4 : Type := Vec4 { c0 : R; c1 : R; c2 : R; c3 : R }.

(** A 4x4 array, row by row, as [np.array] receives it. *)
Record mat4 : Type := Mat4 { r0 : vec4; r1 : vec4; r2 : vec4; r3 : vec4 }.

Definition dot4 (u v : vec4) : R :=
  c0 u * c0 v + c1 u * c1 v + c2 u * c2 v + c3 u * c3 v.

(** The columns of a 4x4 array. *)
Definition col0 (M : mat4) : vec4 := Vec4 (c0 (r0 M)) (c0 (r1 M)) (c0 (r2 M)) (c0 (r3 M)).
Definition col1 (M : mat4) : vec4 := Vec4 (c1 (r0 M)) (c1 (r1 M)) (c1 (r2 M)) (c1 (r3 M)).
Definition col2 (M : mat4) : vec4 := Vec4 (c2 (r0 M)) (c2 (r1 M)) (c2 (r2 M)) (c2 (r3 M)).
Definition col3 (M : mat4) : vec4 := Vec4 (c3 (r0 M)) (c3 (r1 M)) (c3 (r2 M)) (c3 (r3 M)).

(** [np.matmul] of a 4x4 array and a vector of length four. *)
Definition matvec (M : mat4) (p : vec4) : vec4 :=
  Vec4 (dot4 (r0 M) p) (dot4 (r1 M) p) (dot4 (r2 M) p) (dot4 (r3 M) p).

(** A row of the product: the row of the left factor against each
    column of the right one. *)
Definition row_times (u : vec4) (N : mat4) : vec4 :=
  Vec4 (dot4 u (col0 N)) (dot4 u (col1 N)) (dot4 u (col2 N)) (dot4 u (col3 N)).

(** [np.matmul] of two 4x4 arrays. *)
Definition matmul (M N : mat4) : mat4 :=
  Mat4 (row_times (r0 M) N) (row_times (r1 M) N)
       (row_times (r2 M) N) (row_times (r3 M) N).

Definition identity4 : mat4 :=
  Mat4 (Vec4 1 0 0 0) (Vec4 0 1 0 0) (Vec4 0 0 1 0) (Vec4 0 0 0 1).

(* ================================================================= *)
(** ** Frames *)

(** [np.radians]. *)
Definition radians (theta : R) : R := theta * (PI / 180).

(** rotate about y, translate in x *)
Definition frame_yrotate_xtranslate (theta x : R) : mat4 :=
  let theta := radians theta in
  let cos_theta := cos theta in
  let sin_theta := sin theta in
  Mat4 (Vec4 cos_theta 0 sin_theta x)
       (Vec4 0 1 0 0)
       (Vec4 (- sin_theta) 0 cos_theta 0)
       (Vec4 0 0 0 1).

(** rotate about z, translate in x and y *)
Definition frame_zrotate_xytranslate (theta x y : R) : mat4 :=
  let theta := radians theta in
  let cos_theta := cos theta in
  let sin_theta := sin theta in
  Mat4 (Vec4 cos_theta (- sin_theta) 0 x)
       (Vec4 sin_theta cos_theta 0 y)
       (Vec4 0 0 1 0)
       (Vec4 0 0 0 1).

(* ================================================================= *)
(** ** Point *)

Record Point : Type := mkPoint {
  x : R;
  y : R;
  z : R;
  name : option string
}.

(** [Point(x, y, z)], the name left to its default [None]. *)
Definition Point_init (px py pz : R) : Point := mkPoint px py pz None.

(** [point.name = n]. *)
Definition set_name (p : Point) (n : string) : Point :=
  mkPoint (x p) (y p) (z p) (Some n).

(** The coordinates of a point, the name left out. *)
Definition coordinates (p : Point) : R * R * R := (x p, y p, z p).

(** Given the pose of frame b with respect to frame a and a point
    defined in frame b, the point defined in frame a. *)
Definition get_point_wrt (self : Point) (reference_frame : mat4) : Point :=
  let p := Vec4 (x self) (y self) (z self) 1 in
  let p := matvec reference_frame p in
  Point_init (c0 p) (c1 p) (c2 p).

(* ================================================================= *)
(** ** Linkage *)

(** The attributes of a [Linkage] object. *)
Record Linkage : Type := mkLinkage {
  linkage_name : option string;
  _a : R;
  _b : R;
  _c : R;
  _new_origin : Point;
  _new_x_axis : R;
  _alpha : R;
  _beta : R;
  _gamma : R;
  p0 : Point;
  p1 : Point;
  p2 : Point;
  p3 : Point
}.

Definition POINT_NAMES : list string := ["coxia"; "femur"; "tibia"]%string.

Definition store_linkage_attributes (self : Linkage)
    (a b c new_x_axis : R) (new_origin : Point) : Linkage :=
  mkLinkage (linkage_name self) a b c new_origin new_x_axis
            (_alpha self) (_beta self) (_gamma self)
            (p0 self) (p1 self) (p2 self) (p3 self).

Definition save_new_pose (self : Linkage) (alpha beta gamma : R) : Linkage :=
  (* frame_ab is the pose of frame_b wrt frame_a *)
  let frame_01 := frame_yrotate_xtranslate (- beta) (_a self) in
  let frame_12 := frame_yrotate_xtranslate (90 - gamma) (_b self) in
  let frame_23 := frame_yrotate_xtranslate 0 (_c self) in
  let frame_02 := matmul frame_01 frame_12 in
  let frame_03 := matmul frame_02 frame_23 in
  let new_frame :=
    frame_zrotate_xytranslate (_new_x_axis self + alpha)
      (x (_new_origin self)) (y (_new_origin self)) in
  (* find points wrt to body contact point *)
  let q0 := Point_init 0 0 0 in
  let q1 := get_point_wrt q0 frame_01 in
  let q2 := get_point_wrt q0 frame_02 in
  let q3 := get_point_wrt q0 frame_03 in
  (* find points wrt to center of gravity *)
  mkLinkage (linkage_name self) (_a self) (_b self) (_c self)
            (_new_origin self) (_new_x_axis self)
            alpha beta gamma
            (_new_origin self)
            (set_name (set_name (get_point_wrt q1 new_frame) "body_contact") "coxia")
            (set_name (get_point_wrt q2 new_frame) "femur")
            (set_name (get_point_wrt q3 new_frame) "tibia").

(** The object [__init__] receives: only [name] is assigned before the
    two calls that assign every other attribute; the numbers here are
    placeholders that both calls overwrite. *)
Definition blank_linkage (name : option string) : Linkage :=
  mkLinkage name 0 0 0 (Point_init 0 0 0) 0 0 0 0
            (Point_init 0 0 0) (Point_init 0 0 0)
            (Point_init 0 0 0) (Point_init 0 0 0).

(** [Linkage(a, b, c, alpha, beta, gamma, new_x_axis, new_origin, name)]. *)
Definition Linkage_init (a b c alpha beta gamma new_x_axis : R)
    (new_origin : Point) (name : option string) : result Linkage :=
  let self := blank_linkage name in
  let self := store_linkage_attributes self a b c new_x_axis new_origin in
  let self := save_new_pose self alpha beta gamma in
  ret self.

(** [x or y] where [x] is [None] or a number: [None] and zero are
    falsy. *)
Definition or_else (v : option R) (previous : R) : R :=
  match v with
  | None => previous
  | Some w => if Req_dec_T w 0 then previous else w
  end.

Definition change_pose (self : Linkage) (alpha beta gamma : option R) : Linkage :=
  let alpha := or_else alpha (_alpha self) in
  let beta := or_else beta (_beta self) in
  let gamma := or_else gamma (_gamma self) in
  save_new_pose self alpha beta gamma.

Definition toe (self : Linkage) : Point := p3 self.

Definition floor_height (self : Linkage) : R := - z (p3 self).

(* ================================================================= *)
(** ** Hexagon *)

Definition VERTEX_NAMES : list string :=
  ["right-middle"; "right-front"; "left-front";
   "left-middle"; "left-back"; "right-back"]%string.

Definition NEW_X_AXES : list R := [0; 45; 135; 180; 225; 315].

Record Hexagon : Type := mkHexagon {
  f : R;
  m : R;
  s : R;
  cog : Point;
  head : Point;
  vertices : list Point
}.

(** [Hexagon(f, m, s)]. *)
Definition Hexagon_init (f m s : R) : Hexagon :=
  mkHexagon f m s
    (Point_init 0 0 0)
    (Point_init 0 s 0)
    [ Point_init m 0 0;
      Point_init f s 0;
      Point_init (- f) s 0;
      Point_init (- m) 0 0;
      Point_init (- f) (- s) 0;
      Point_init f (- s) 0 ].

(** The componentwise sum of a list of points. *)
Definition sum_coordinates (ps : list Point) : R * R * R :=
  fold_left (fun acc p => let '(sx, sy, sz) := acc in (sx + x p, sy + y p, sz + z p))
            ps (0, 0, 0).

(* ================================================================= *)
(** ** VirtualHexapod *)

Record VirtualHexapod : Type := mkVirtualHexapod {
  linkage_measurements : list R;
  body_measurements : list R;
  body : Hexagon;
  legs : list Linkage
}.

(** Python's [zip] of three lists: it stops with the shortest. *)
Fixpoint zip3 {A B C : Type} (xs : list A) (ys : list B) (zs : list C)
    : list (A * B * C) :=
  match xs, ys, zs with
  | a :: xs', b :: ys', c :: zs' => (a, b, c) :: zip3 xs' ys' zs'
  | _, _, _ => []
  end.

(** The [for] loop of [store_neutral_legs]: one neutral linkage per
    vertex, appended to the legs built so far. *)
Fixpoint append_neutral_legs (a b c : R) (items : list (Point * R * string))
    (legs : list Linkage) : result (list Linkage) :=
  match items with
  | [] => ret legs
  | (point, theta, name) :: rest =>
      linkage <- Linkage_init a b c 0 0 0 theta point (Some name) ;;
      append_neutral_legs a b c rest (legs ++ [linkage])
  end.

Definition store_neutral_legs (self : VirtualHexapod) (a b c : R)
    : result VirtualHexapod :=
  legs <- append_neutral_legs a b c
            (zip3 (vertices (body self)) NEW_X_AXES VERTEX_NAMES) [] ;;
  ret (mkVirtualHexapod (linkage_measurements self) (body_measurements self)
                        (body self) legs).

(** [VirtualHexapod(a, b, c, f, m, s)]. *)
Definition VirtualHexapod_init (a b c f m s : R) : result VirtualHexapod :=
  let self := mkVirtualHexapod [a; b; c] [f; m; s] (Hexagon_init f m s) [] in
  store_neutral_legs self a b c.

(** [sorted(xs, key=key, reverse=True)]: a stable sort by decreasing
    key, so elements of equal key keep the order they have in [xs].
    An element goes in front of the first one whose key is not
    larger. *)
Fixpoint insert_reverse {A : Type} (key : A -> R) (v : A) (sorted : list A)
    : list A :=
  match sorted with
  | [] => [v]
  | w :: rest =>
      if Rlt_dec (key v) (key w)
      then w :: insert_reverse key v rest
      else v :: w :: rest
  end.

Fixpoint sorted_reverse {A : Type} (key : A -> R) (xs : list A) : list A :=
  match xs with
  | [] => []
  | v :: rest => insert_reverse key v (sorted_reverse key rest)
  end.

(** The loop that collects the feet on the floor: it appends while the
    floor height reaches the threshold and breaks at the first leg that
    does not. *)
Fixpoint collect_feet (threshold : R) (sorted_legs feet_on_floor : list Linkage)
    : list Linkage :=
  match sorted_legs with
  | [] => feet_on_floor
  | leg :: rest =>
      if Rge_dec (floor_height leg) threshold
      then collect_feet threshold rest (feet_on_floor ++ [leg])
      else feet_on_floor
  end.

Definition find_feet_on_ground (self : VirtualHexapod)
    : result (option (list Linkage) * option Linkage) :=
  let take_floor_height := fun leg => floor_height leg in
  let sorted_legs := sorted_reverse take_floor_height (legs self) in
  (* floor height is negative if the body contact point is touching the ground *)
  lowest <- subscript sorted_legs 0 ;;
  if Rle_dec (floor_height lowest) 0 then ret (None, None)
  else
    (* Find feet on the floor *)
    let tolerance := 2 in
    third <- subscript sorted_legs 2 ;;
    let threshold := floor_height third - tolerance in
    let feet_on_floor := collect_feet threshold sorted_legs [] in
    pivot_foot <-
      (if (0 <? List.length feet_on_floor)%nat
       then first <- subscript feet_on_floor 0 ;; ret (Some first)
       else ret None) ;;
    ret (Some feet_on_floor, pivot_foot).

(* ================================================================= *)
(** ** Notions used in the statements *)

(** The bottom row, the rotation block and its determinant. *)
Definition dot3 (u v : vec4) : R :=
  c0 u * c0 v + c1 u * c1 v + c2 u * c2 v.

Definition det3 (M : mat4) : R :=
  c0 (r0 M) * (c1 (r1 M) * c2 (r2 M) - c2 (r1 M) * c1 (r2 M))
  - c1 (r0 M) * (c0 (r1 M) * c2 (r2 M) - c2 (r1 M) * c0 (r2 M))
  + c2 (r0 M) * (c0 (r1 M) * c1 (r2 M) - c1 (r1 M) * c0 (r2 M)).

(** The three given vectors have length one and are perpendicular to
    each other, the fourth component left out. *)
Definition orthonormal_triple (u v w : vec4) : Prop :=
  dot3 u u = 1 /\ dot3 v v = 1 /\ dot3 w w = 1 /\
  dot3 u v = 0 /\ dot3 u w = 0 /\ dot3 v w = 0.

Definition orthonormal_block (M : mat4) : Prop :=
  orthonormal_triple (r0 M) (r1 M) (r2 M) /\
  orthonormal_triple (col0 M) (col1 M) (col2 M).

Definition rigid_transform (M : mat4) : Prop :=
  r3 M = Vec4 0 0 0 1 /\ orthonormal_block M /\ det3 M = 1.

(** The frames the program builds: the two builders and the products
    [save_new_pose] takes of them. *)
Inductive built_frame : mat4 -> Prop :=
| built_yrotate (theta x : R) :
    built_frame (frame_yrotate_xtranslate theta x)
| built_zrotate (theta x y : R) :
    built_frame (frame_zrotate_xytranslate theta x y)
| built_matmul (M N : mat4) :
    built_frame M -> built_frame N -> built_frame (matmul M N).

Definition inverse_of (F G : mat4) : Prop :=
  matmul G F = identity4 /\ matmul F G = identity4.

(** Two points agree within a tolerance, coordinate by coordinate. *)
Definition within (tolerance : R) (p : Point) (q : R * R * R) : Prop :=
  let '(qx, qy, qz) := q in
  Rabs (x p - qx) <= tolerance /\
  Rabs (y p - qy) <= tolerance /\
  Rabs (z p - qz) <= tolerance.

(** An argument of [change_pose] that keeps the previous angle. *)
Definition keeps_previous (v : option R) : Prop := v = None \/ v = Some 0.

(** [u] may stand in front of [v] in a list sorted by decreasing key. *)
Definition key_ge {A : Type} (key : A -> R) (u v : A) : Prop := key u >= key v.

(** The elements of key [k], in the order of the list. *)
Definition of_key {A : Type} (key : A -> R) (k : R) (xs : list A) : list A :=
  filter (fun v => if Req_dec_T (key v) k then true else false) xs.

(** [pre] is the longest prefix of [xs] whose elements all satisfy [P]. *)
Definition maximal_prefix {A : Type} (P : A -> Prop) (pre xs : list A) : Prop :=
  exists rest,
    xs = pre ++ rest /\
    Forall P pre /\
    match rest with
    | [] => True
    | v :: _ => ~ P v
    end.

(** A leg reaches the threshold. *)
Definition on_floor (threshold : R) (leg : Linkage) : Prop :=
  floor_height leg >= threshold.

(** No leg of the list has a floor height above that of [top]. *)
Definition largest_floor_height (top : Linkage) (legs : list Linkage) : Prop :=
  In top legs /\ forall leg, In leg legs -> floor_height leg <= floor_height top.

(** The neutral leg [store_neutral_legs] mounts at a vertex. *)
Definition neutral_leg (a b c theta : R) (point : Point) (name : string) : Linkage :=
  save_new_pose
    (store_linkage_attributes (blank_linkage (Some name)) a b c theta point)
    0 0 0.

(** Leg [i] of the hexapod with a=100, b=80, c=120, f=50, m=70, s=60,
    as the constructor mounts it. *)
Definition leg_n (i : nat) : Linkage :=
  neutral_leg 100 80 120
    (nth i NEW_X_AXES 0)
    (nth i (vertices (Hexagon_init 50 70 60)) (Point_init 0 0 0))
    (nth i VERTEX_NAMES EmptyString).

(** [leg.change_pose(gamma=90)]. *)
Definition stretch (leg : Linkage) : Linkage := change_pose leg None None (Some 90).

(** That hexapod after legs 0, 2 and 4 were stretched out. *)
Definition tripod_hexapod : VirtualHexapod :=
  mkVirtualHexapod [100; 80; 120] [50; 70; 60] (Hexagon_init 50 70 60)
    [stretch (leg_n 0); leg_n 1; stretch (leg_n 2);
     leg_n 3; stretch (leg_n 4); leg_n 5].

(** The square of the distance between two points. *)
Definition dist2 (p q : Point) : R :=
  (x p - x q) * (x p - x q) + (y p - y q) * (y p - y q) + (z p - z q) * (z p - z q).

(** The test of the loop of [find_feet_on_ground], as a boolean. *)
Definition reaches (threshold : R) (leg : Linkage) : bool :=
  if Rge_dec (floor_height leg) threshold then true else false.

(** The point on the other side of the z axis, at the same height. *)
Definition opposite (q : R * R * R) : R * R * R :=
  let '(qx, qy, qz) := q in (- qx, - qy, qz).

(* ================================================================= *)
(** ** Properties of the frames *)

Lemma sin_cos_square (t : R) : sin t * sin t + cos t * cos t = 1.
Proof. exact (sin2_cos2 t). Qed.

Ltac unfold_arrays :=
  unfold matmul, row_times, matvec, dot4, dot3, det3,
         col0, col1, col2, col3, identity4; cbn [r0 r1 r2 r3 c0 c1 c2 c3].

Lemma vec4_eq (a0 a1 a2 a3 b0 b1 b2 b3 : R) :
  a0 = b0 -> a1 = b1 -> a2 = b2 -> a3 = b3 -> Vec4 a0 a1 a2 a3 = Vec4 b0 b1 b2 b3.
Proof. intros; subst; reflexivity. Qed.

Lemma mat4_eq (u0 u1 u2 u3 v0 v1 v2 v3 : vec4) :
  u0 = v0 -> u1 = v1 -> u2 = v2 -> u3 = v3 -> Mat4 u0 u1 u2 u3 = Mat4 v0 v1 v2 v3.
Proof. intros; subst; reflexivity. Qed.

Ltac array_ring := unfold_arrays; repeat (apply mat4_eq || apply vec4_eq); ring.

Lemma matmul_assoc (A B C : mat4) :
  matmul (matmul A B) C = matmul A (matmul B C).
Proof. destruct A as [[] [] [] []], B as [[] [] [] []], C as [[] [] [] []]. array_ring. Qed.

Lemma matmul_identity_l (M : mat4) : matmul identity4 M = M.
Proof. destruct M as [[] [] [] []]. array_ring. Qed.

Lemma matmul_identity_r (M : mat4) : matmul M identity4 = M.
Proof. destruct M as [[] [] [] []]. array_ring. Qed.

Lemma matvec_matmul (G F : mat4) (p : vec4) :
  matvec (matmul G F) p = matvec G (matvec F p).
Proof. destruct G as [[] [] [] []], F as [[] [] [] []], p. array_ring. Qed.

Lemma matvec_identity (p : vec4) : matvec identity4 p = p.
Proof. destruct p. array_ring. Qed.

Lemma yrotate_rigid (theta x : R) : rigid_transform (frame_yrotate_xtranslate theta x).
Proof.
  unfold rigid_transform, orthonormal_block, orthonormal_triple, frame_yrotate_xtranslate.
  pose proof (sin_cos_square (radians theta)) as H.
  unfold_arrays. repeat split; try ring; nra.
Qed.

Lemma zrotate_rigid (theta x y : R) : rigid_transform (frame_zrotate_xytranslate theta x y).
Proof.
  unfold rigid_transform, orthonormal_block, orthonormal_triple, frame_zrotate_xytranslate.
  pose proof (sin_cos_square (radians theta)) as H.
  unfold_arrays. repeat split; try ring; nra.
Qed.

(** C7: for every angle and every translation, both builders return a
    rigid transform: the bottom row is [0, 0, 0, 1], the rows and the
    columns of the upper-left 3x3 block are orthonormal, and the
    determinant of the block is 1. *)
Theorem builders_rigid (theta x y : R) :
  rigid_transform (frame_yrotate_xtranslate theta x) /\
  rigid_transform (frame_zrotate_xytranslate theta x y).
Proof. split; [apply yrotate_rigid | apply zrotate_rigid]. Qed.

Lemma built_bottom_row (F : mat4) : built_frame F -> r3 F = Vec4 0 0 0 1.
Proof.
  induction 1 as [theta x | theta x y | M N _ IHM _ IHN]; try reflexivity.
  destruct M as [m0 m1 m2 m3], N as [[] [] [] n3]. cbn [r3] in IHM, IHN. subst m3 n3.
  array_ring.
Qed.

Lemma yrotate_inverse (theta x : R) :
  exists G, inverse_of (frame_yrotate_xtranslate theta x) G.
Proof.
  set (t := radians theta).
  exists (Mat4 (Vec4 (cos t) 0 (- sin t) (- (x * cos t)))
               (Vec4 0 1 0 0)
               (Vec4 (sin t) 0 (cos t) (- (x * sin t)))
               (Vec4 0 0 0 1)).
  pose proof (sin_cos_square t) as H.
  unfold inverse_of, frame_yrotate_xtranslate. fold t.
  split; unfold_arrays; repeat (apply mat4_eq || apply vec4_eq); try ring; nsatz.
Qed.

Lemma zrotate_inverse (theta x y : R) :
  exists G, inverse_of (frame_zrotate_xytranslate theta x y) G.
Proof.
  set (t := radians theta).
  exists (Mat4 (Vec4 (cos t) (sin t) 0 (- (x * cos t + y * sin t)))
               (Vec4 (- sin t) (cos t) 0 (x * sin t - y * cos t))
               (Vec4 0 0 1 0)
               (Vec4 0 0 0 1)).
  pose proof (sin_cos_square t) as H.
  unfold inverse_of, frame_zrotate_xytranslate. fold t.
  split; unfold_arrays; repeat (apply mat4_eq || apply vec4_eq); try ring; nsatz.
Qed.

Lemma inverse_of_matmul (M N GM GN : mat4) :
  inverse_of M GM -> inverse_of N GN -> inverse_of (matmul M N) (matmul GN GM).
Proof.
  intros [HM1 HM2] [HN1 HN2]. split.
  - rewrite matmul_assoc, <- (matmul_assoc GM M N), HM1, matmul_identity_l. exact HN1.
  - rewrite matmul_assoc, <- (matmul_assoc N GN GM), HN2, matmul_identity_l. exact HM2.
Qed.

Lemma built_inverse (F : mat4) : built_frame F -> exists G, inverse_of F G.
Proof.
  induction 1 as [theta x | theta x y | M N _ [GM HM] _ [GN HN]].
  - apply yrotate_inverse.
  - apply zrotate_inverse.
  - exists (matmul GN GM). now apply inverse_of_matmul.
Qed.

(** A frame whose bottom row is [0, 0, 0, 1] sends a vector of fourth
    component 1 to one of fourth component 1, so nothing is lost when
    [get_point_wrt] keeps three components only. *)
Lemma get_point_wrt_vector (P : Point) (F : mat4) :
  r3 F = Vec4 0 0 0 1 ->
  let Q := get_point_wrt P F in
  Vec4 (x Q) (y Q) (z Q) 1 = matvec F (Vec4 (x P) (y P) (z P) 1).
Proof.
  destruct F as [f0 f1 f2 f3], P as [px py pz pn]. cbn [r3]. intros ->.
  unfold get_point_wrt, Point_init. cbn [x y z]. array_ring.
Qed.

(** C9: a frame [F] made by the builders (or a product of such frames)
    has an inverse, and for every inverse [G] of [F] and every point
    [P], taking [P] with respect to [F] and the result with respect to
    [G] gives back the coordinates of [P]. *)
Theorem get_point_wrt_round_trip (F : mat4) :
  built_frame F ->
  (exists G, inverse_of F G) /\
  (forall G P, inverse_of F G ->
     coordinates (get_point_wrt (get_point_wrt P F) G) = coordinates P).
Proof.
  intros HF. split; [now apply built_inverse|].
  intros G P [HG _].
  pose proof (get_point_wrt_vector P F (built_bottom_row F HF)) as HQ.
  cbv zeta in HQ.
  unfold get_point_wrt at 1. rewrite HQ, <- matvec_matmul, HG, matvec_identity.
  reflexivity.
Qed.

(** C9 at the frame that rotates by 30 degrees about y and translates
    by 7 along x. *)
Lemma get_point_wrt_round_trip_witness :
  built_frame (frame_yrotate_xtranslate 30 7) /\
  ((exists G, inverse_of (frame_yrotate_xtranslate 30 7) G) /\
   (forall G P, inverse_of (frame_yrotate_xtranslate 30 7) G ->
      coordinates (get_point_wrt (get_point_wrt P (frame_yrotate_xtranslate 30 7)) G)
      = coordinates P)).
Proof.
  split.
  - apply built_yrotate.
  - apply (get_point_wrt_round_trip _ (built_yrotate 30 7)).
Defined.

(* ================================================================= *)
(** ** Properties of a linkage *)

Lemma radians_0 : radians 0 = 0.
Proof. unfold radians. field. Qed.

Lemma radians_90 : radians 90 = PI / 2.
Proof. unfold radians. field. Qed.

(** The frame of a segment that does not rotate. *)
Lemma frame_yrotate_0 (d : R) :
  frame_yrotate_xtranslate 0 d =
  Mat4 (Vec4 1 0 0 d) (Vec4 0 1 0 0) (Vec4 (- 0) 0 1 0) (Vec4 0 0 0 1).
Proof.
  unfold frame_yrotate_xtranslate. cbv zeta. rewrite radians_0, cos_0, sin_0.
  reflexivity.
Qed.

(** The frame of a segment that turns by a right angle. *)
Lemma frame_yrotate_90 (d : R) :
  frame_yrotate_xtranslate 90 d =
  Mat4 (Vec4 0 0 1 d) (Vec4 0 1 0 0) (Vec4 (- 1) 0 0 0) (Vec4 0 0 0 1).
Proof.
  unfold frame_yrotate_xtranslate. cbv zeta. rewrite radians_90, cos_PI2, sin_PI2.
  reflexivity.
Qed.

Lemma point_eq (a1 a2 a3 b1 b2 b3 : R) (n : option string) :
  a1 = b1 -> a2 = b2 -> a3 = b3 -> mkPoint a1 a2 a3 n = mkPoint b1 b2 b3 n.
Proof. intros; subst; reflexivity. Qed.

(** The origin of a frame, seen from its parent, is the translation
    column of the frame. *)
Lemma origin_wrt (F : mat4) :
  get_point_wrt (Point_init 0 0 0) F = Point_init (c3 (r0 F)) (c3 (r1 F)) (c3 (r2 F)).
Proof.
  destruct F as [[] [] [] []]. unfold get_point_wrt, Point_init. cbn [x y z].
  unfold_arrays. apply point_eq; ring.
Qed.

(** A point seen through the mount frame: turned about z, then moved
    in x and y; its height is kept. *)
Lemma wrt_zrotate (q : Point) (theta ox oy : R) :
  let t := radians theta in
  get_point_wrt q (frame_zrotate_xytranslate theta ox oy) =
  Point_init (x q * cos t - y q * sin t + ox) (x q * sin t + y q * cos t + oy) (z q).
Proof.
  destruct q. unfold get_point_wrt, frame_zrotate_xytranslate, Point_init. cbn [x y z].
  unfold_arrays. apply point_eq; ring.
Qed.

(** The frames of the femur and of the tibia at the neutral pose. *)
Lemma neutral_frame_02 (a b : R) :
  matmul (frame_yrotate_xtranslate 0 a) (frame_yrotate_xtranslate 90 b) =
  Mat4 (Vec4 0 0 1 (a + b)) (Vec4 0 1 0 0) (Vec4 (- 1) 0 0 0) (Vec4 0 0 0 1).
Proof. rewrite frame_yrotate_0, frame_yrotate_90. array_ring. Qed.

Lemma neutral_frame_03 (a b c : R) :
  matmul (matmul (frame_yrotate_xtranslate 0 a) (frame_yrotate_xtranslate 90 b))
         (frame_yrotate_xtranslate 0 c) =
  Mat4 (Vec4 0 0 1 (a + b)) (Vec4 0 1 0 0) (Vec4 (- 1) 0 0 (- c)) (Vec4 0 0 0 1).
Proof. rewrite neutral_frame_02, frame_yrotate_0. array_ring. Qed.

(** The points of a linkage at the neutral pose: links a and b form a
    straight line in the direction of the mount, and link c hangs
    straight down from its end. *)
Lemma neutral_pose_points (self : Linkage) :
  let t := radians (_new_x_axis self + 0) in
  let o := _new_origin self in
  let r := save_new_pose self 0 0 0 in
  coordinates (p1 r) = (x o + _a self * cos t, y o + _a self * sin t, 0) /\
  coordinates (p2 r) =
    (x o + (_a self + _b self) * cos t, y o + (_a self + _b self) * sin t, 0) /\
  coordinates (p3 r) =
    (x o + (_a self + _b self) * cos t, y o + (_a self + _b self) * sin t, - _c self).
Proof.
  cbv zeta. unfold save_new_pose. cbv zeta.
  rewrite Ropp_0, Rminus_0_r, neutral_frame_03, neutral_frame_02, frame_yrotate_0.
  rewrite !origin_wrt. cbn [r0 r1 r2 c3 p1 p2 p3].
  rewrite !wrt_zrotate. cbv zeta.
  unfold set_name, Point_init, coordinates. cbn [x y z].
  repeat split; f_equal; try f_equal; ring.
Qed.

Lemma neutral_floor_height (self : Linkage) :
  floor_height (save_new_pose self 0 0 0) = _c self.
Proof.
  destruct (neutral_pose_points self) as (_ & _ & H3). cbv zeta in H3.
  apply (f_equal snd) in H3.
  change (z (p3 (save_new_pose self 0 0 0)) = - _c self) in H3.
  unfold floor_height. rewrite H3. ring.
Qed.

(** The constructor has no path that raises. *)
Lemma Linkage_init_returns (a b c alpha beta gamma new_x_axis : R)
    (new_origin : Point) (name : option string) :
  Linkage_init a b c alpha beta gamma new_x_axis new_origin name =
  inr (save_new_pose
         (store_linkage_attributes (blank_linkage name) a b c new_x_axis new_origin)
         alpha beta gamma).
Proof. reflexivity. Qed.

Lemma neutral_linkage_at_origin (a b c : R) :
  let l := save_new_pose
             (store_linkage_attributes (blank_linkage None) a b c 0 (Point_init 0 0 0))
             0 0 0 in
  coordinates (p1 l) = (a, 0, 0) /\
  coordinates (p2 l) = (a + b, 0, 0) /\
  coordinates (p3 l) = (a + b, 0, - c).
Proof.
  cbv zeta.
  destruct (neutral_pose_points
              (store_linkage_attributes (blank_linkage None) a b c 0
                 (Point_init 0 0 0))) as (H1 & H2 & H3).
  cbv zeta in H1, H2, H3. rewrite H1, H2, H3.
  unfold store_linkage_attributes, Point_init. cbn [_a _b _c _new_origin _new_x_axis x y].
  rewrite Rplus_0_r, radians_0, cos_0, sin_0.
  repeat split; f_equal; try f_equal; ring.
Qed.

(** C1, as amended: the linkage with a=100, b=80, c=120, all angles 0,
    mounted at the origin with heading 0, is built without an exception
    and has p1=(100,0,0), p2=(180,0,0) and p3=(180,0,-120): the femur
    continues the coxia along x. *)
Theorem neutral_pose_closed_form :
  exists l,
    Linkage_init 100 80 120 0 0 0 0 (Point_init 0 0 0) None = inr l /\
    coordinates (p1 l) = (100, 0, 0) /\
    coordinates (p2 l) = (180, 0, 0) /\
    coordinates (p3 l) = (180, 0, -120).
Proof.
  eexists. split; [apply Linkage_init_returns|].
  destruct (neutral_linkage_at_origin 100 80 120) as (H1 & H2 & H3).
  cbv zeta in H1, H2, H3. rewrite H1, H2, H3.
  repeat split; f_equal; try f_equal; ring.
Qed.

(** C1, as stated, fails: the femur tip of that linkage is not within
    1e-6 of (100,80,0). *)
Lemma neutral_pose_claimed_values_fail :
  match Linkage_init 100 80 120 0 0 0 0 (Point_init 0 0 0) None with
  | inr l =>
      ~ (within (1 / 1000000) (p1 l) (100, 0, 0) /\
         within (1 / 1000000) (p2 l) (100, 80, 0) /\
         within (1 / 1000000) (p3 l) (100, 80, -120))
  | inl _ => False
  end.
Proof.
  rewrite Linkage_init_returns.
  destruct (neutral_linkage_at_origin 100 80 120) as (_ & H2 & _).
  cbv zeta in H2. intros (_ & (Hx & _) & _).
  apply (f_equal (fun q => fst (fst q))) in H2.
  change (x (p2 (save_new_pose
                   (store_linkage_attributes (blank_linkage None) 100 80 120 0
                      (Point_init 0 0 0)) 0 0 0)) = 100 + 80) in H2.
  rewrite H2 in Hx.
  replace (100 + 80 - 100) with 80 in Hx by ring.
  rewrite Rabs_pos_eq in Hx; lra.
Qed.

Lemma append_neutral_legs_returns (a b c : R) (items : list (Point * R * string))
    (legs : list Linkage) :
  append_neutral_legs a b c items legs =
  inr (legs ++ map (fun '(point, theta, name) => neutral_leg a b c theta point name) items).
Proof.
  revert legs. induction items as [|[[point theta] name] rest IH]; intros legs.
  - cbn [append_neutral_legs map]. now rewrite app_nil_r.
  - cbn [append_neutral_legs map]. rewrite Linkage_init_returns.
    cbn [bind Monad_either]. rewrite IH, <- app_assoc. reflexivity.
Qed.

Lemma VirtualHexapod_init_returns (a b c f m s : R) :
  VirtualHexapod_init a b c f m s =
  inr (mkVirtualHexapod [a; b; c] [f; m; s] (Hexagon_init f m s)
         (map (fun '(point, theta, name) => neutral_leg a b c theta point name)
              (zip3 (vertices (Hexagon_init f m s)) NEW_X_AXES VERTEX_NAMES))).
Proof.
  unfold VirtualHexapod_init, store_neutral_legs.
  cbn [body linkage_measurements body_measurements].
  rewrite append_neutral_legs_returns. reflexivity.
Qed.



(** The value [or_else] picks. *)
Lemma or_else_None (previous : R) : or_else None previous = previous.
Proof. reflexivity. Qed.

Lemma or_else_zero (previous : R) : or_else (Some 0) previous = previous.
Proof. unfold or_else. destruct (Req_dec_T 0 0) as [_|H]; [reflexivity | now elim H]. Qed.

Lemma or_else_nonzero (v previous : R) : v <> 0 -> or_else (Some v) previous = v.
Proof. intros Hv. unfold or_else. destruct (Req_dec_T v 0) as [H|_]; [now elim Hv | reflexivity]. Qed.

(** C3: [change_pose] takes an omitted angle and an angle of 0 alike.
    In both cases the angle keeps its previous value; a value other
    than 0 replaces it; and the linkage is the one [save_new_pose]
    computes from the three resulting angles.  Replacing an omitted
    argument by 0 changes nothing. *)
Theorem change_pose_falsy_angle (self : Linkage) (alpha beta gamma : option R) :
  let r := change_pose self alpha beta gamma in
  (keeps_previous alpha -> _alpha r = _alpha self) /\
  (keeps_previous beta -> _beta r = _beta self) /\
  (keeps_previous gamma -> _gamma r = _gamma self) /\
  (forall v, alpha = Some v -> v <> 0 -> _alpha r = v) /\
  (forall v, beta = Some v -> v <> 0 -> _beta r = v) /\
  (forall v, gamma = Some v -> v <> 0 -> _gamma r = v) /\
  r = save_new_pose self (_alpha r) (_beta r) (_gamma r) /\
  change_pose self None beta gamma = change_pose self (Some 0) beta gamma /\
  change_pose self alpha None gamma = change_pose self alpha (Some 0) gamma /\
  change_pose self alpha beta None = change_pose self alpha beta (Some 0).
Proof.
  cbv zeta. unfold change_pose, save_new_pose, keeps_previous.
  cbn [_alpha _beta _gamma].
  repeat split.
  - intros [-> | ->]; [apply or_else_None | apply or_else_zero].
  - intros [-> | ->]; [apply or_else_None | apply or_else_zero].
  - intros [-> | ->]; [apply or_else_None | apply or_else_zero].
  - intros v -> Hv. now apply or_else_nonzero.
  - intros v -> Hv. now apply or_else_nonzero.
  - intros v -> Hv. now apply or_else_nonzero.
  - now rewrite or_else_zero.
  - now rewrite or_else_zero.
  - now rewrite or_else_zero.
Qed.

(** C10: [change_pose] leaves the name, the lengths a, b, c, the mount
    heading and the mount origin as they were, and afterwards p0 is the
    mount origin. *)
Theorem change_pose_keeps_geometry (self : Linkage) (alpha beta gamma : option R) :
  let r := change_pose self alpha beta gamma in
  linkage_name r = linkage_name self /\
  _a r = _a self /\ _b r = _b self /\ _c r = _c self /\
  _new_x_axis r = _new_x_axis self /\
  _new_origin r = _new_origin self /\
  p0 r = _new_origin self /\
  p0 r = _new_origin r.
Proof. cbv zeta. unfold change_pose, save_new_pose. cbv zeta. repeat split. Qed.

(** C3 on a linkage at the angles 10, 20, 30: an explicit 0 and an
    omitted angle keep 10 and 20, and 5 replaces 30. *)
Lemma change_pose_falsy_angle_witness :
  let self :=
    save_new_pose
      (store_linkage_attributes (blank_linkage None) 100 80 120 0 (Point_init 0 0 0))
      10 20 30 in
  let r := change_pose self (Some 0) None (Some 5) in
  _alpha r = 10 /\ _beta r = 20 /\ _gamma r = 5.
Proof.
  cbv zeta.
  destruct (change_pose_falsy_angle
              (save_new_pose
                 (store_linkage_attributes (blank_linkage None) 100 80 120 0
                    (Point_init 0 0 0)) 10 20 30)
              (Some 0) None (Some 5)) as (Ha & Hb & _ & _ & _ & Hg & _).
  split; [|split].
  - apply Ha. right. reflexivity.
  - apply Hb. left. reflexivity.
  - apply (Hg 5 eq_refl). lra.
Defined.

(* ================================================================= *)
(** ** Properties of the hexagon *)

(** C8: the hexagon with f=1, m=2, s=3 has (2,0,0) and (1,3,0) as its
    first two vertices, and for every f, m, s the coordinates of the
    six vertices add up to (0,0,0). *)
Theorem hexagon_symmetry :
  nth_error (vertices (Hexagon_init 1 2 3)) 0 = Some (Point_init 2 0 0) /\
  nth_error (vertices (Hexagon_init 1 2 3)) 1 = Some (Point_init 1 3 0) /\
  (forall f m s, sum_coordinates (vertices (Hexagon_init f m s)) = (0, 0, 0)).
Proof.
  repeat split.
  intros f m s. unfold sum_coordinates, Hexagon_init, Point_init.
  cbn [vertices fold_left x y z].
  f_equal; [f_equal|]; ring.
Qed.

(* ================================================================= *)
(** ** Properties of the sort *)

Section SortedReverse.

Context {A : Type}.
Variable key : A -> R.

Lemma insert_reverse_perm (v : A) (s : list A) :
  Permutation (insert_reverse key v s) (v :: s).
Proof.
  induction s as [|w rest IH]; cbn [insert_reverse]; [reflexivity|].
  destruct (Rlt_dec (key v) (key w)); [|reflexivity].
  rewrite IH. apply perm_swap.
Qed.

Lemma sorted_reverse_perm (xs : list A) : Permutation (sorted_reverse key xs) xs.
Proof.
  induction xs as [|v rest IH]; cbn [sorted_reverse]; [reflexivity|].
  rewrite insert_reverse_perm. now constructor.
Qed.

Lemma sorted_reverse_length (xs : list A) :
  List.length (sorted_reverse key xs) = List.length xs.
Proof. apply Permutation_length, sorted_reverse_perm. Qed.

Lemma insert_reverse_sorted (v : A) (s : list A) :
  StronglySorted (key_ge key) s -> StronglySorted (key_ge key) (insert_reverse key v s).
Proof.
  induction 1 as [|w rest Hrest IH Hw]; cbn [insert_reverse].
  - repeat constructor.
  - destruct (Rlt_dec (key v) (key w)) as [Hlt|Hge].
    + constructor; [exact IH|].
      rewrite insert_reverse_perm. constructor; [|exact Hw].
      unfold key_ge. lra.
    + assert (Hvw : key_ge key v w) by (unfold key_ge; lra).
      constructor; [now constructor|].
      constructor; [exact Hvw|].
      eapply Forall_impl; [|exact Hw].
      unfold key_ge in *. intros u Hu. lra.
Qed.

Lemma sorted_reverse_sorted (xs : list A) :
  StronglySorted (key_ge key) (sorted_reverse key xs).
Proof.
  induction xs as [|v rest IH]; cbn [sorted_reverse]; [constructor|].
  now apply insert_reverse_sorted.
Qed.

Lemma of_key_insert_reverse (k : R) (v : A) (s : list A) :
  of_key key k (insert_reverse key v s) = of_key key k (v :: s).
Proof.
  induction s as [|w rest IH]; cbn [insert_reverse]; [reflexivity|].
  destruct (Rlt_dec (key v) (key w)) as [Hlt|Hge]; [|reflexivity].
  unfold of_key in *. cbn [filter] in *. rewrite IH.
  destruct (Req_dec_T (key w) k), (Req_dec_T (key v) k); try reflexivity.
  lra.
Qed.

(** The sort is stable: the elements of one key keep their order. *)
Lemma sorted_reverse_stable (k : R) (xs : list A) :
  of_key key k (sorted_reverse key xs) = of_key key k xs.
Proof.
  induction xs as [|v rest IH]; cbn [sorted_reverse]; [reflexivity|].
  rewrite of_key_insert_reverse. unfold of_key in *. cbn [filter].
  now rewrite IH.
Qed.

End SortedReverse.

(* ================================================================= *)
(** ** Properties of the ground contact *)

Lemma collect_feet_prefix (threshold : R) (sorted_legs feet_on_floor : list Linkage) :
  exists pre,
    collect_feet threshold sorted_legs feet_on_floor = feet_on_floor ++ pre /\
    maximal_prefix (on_floor threshold) pre sorted_legs.
Proof.
  revert feet_on_floor.
  induction sorted_legs as [|leg rest IH]; intros acc; cbn [collect_feet].
  - exists []. split; [now rewrite app_nil_r|]. exists []. now repeat split.
  - destruct (Rge_dec (floor_height leg) threshold) as [Hge|Hlt].
    + destruct (IH (acc ++ [leg])) as (pre & Hpre & tail & Htail & Hall & Hstop).
      exists (leg :: pre). split.
      * rewrite Hpre, <- app_assoc. reflexivity.
      * exists tail. repeat split; [now rewrite Htail | now constructor | exact Hstop].
    + exists []. split; [now rewrite app_nil_r|].
      exists (leg :: rest). now repeat split.
Qed.

Lemma inr_inj {A : Type} (u v : A) : (inr u : result A) = inr v -> u = v.
Proof. intros H. now inversion H. Qed.

Lemma pivot_foot_value (feet_on_floor : list Linkage) :
  (if (0 <? List.length feet_on_floor)%nat
   then first <- subscript feet_on_floor 0 ;; ret (Some first)
   else ret None)
  = (inr (hd_error feet_on_floor) : result (option Linkage)).
Proof. destruct feet_on_floor; reflexivity. Qed.

(** What [find_feet_on_ground] returns on six legs: neither subscript
    is out of range. *)
Lemma find_feet_on_ground_six (self : VirtualHexapod) :
  List.length (legs self) = 6%nat ->
  exists s0 s1 s2 rest,
    sorted_reverse floor_height (legs self) = s0 :: s1 :: s2 :: rest /\
    find_feet_on_ground self =
    inr (if Rle_dec (floor_height s0) 0 then (None, None)
         else
           let feet_on_floor :=
             collect_feet (floor_height s2 - 2) (s0 :: s1 :: s2 :: rest) [] in
           (Some feet_on_floor, hd_error feet_on_floor)).
Proof.
  intros Hlen.
  pose proof (sorted_reverse_length floor_height (legs self)) as Hs.
  rewrite Hlen in Hs.
  destruct (sorted_reverse floor_height (legs self))
    as [|s0 [|s1 [|s2 rest]]] eqn:E; try discriminate Hs.
  exists s0, s1, s2, rest. split; [reflexivity|].
  unfold find_feet_on_ground. cbv zeta.
  change (sorted_reverse (fun leg => floor_height leg) (legs self))
    with (sorted_reverse floor_height (legs self)).
  rewrite E.
  unfold subscript. cbn [nth_error bind ret Monad_either].
  destruct (Rle_dec (floor_height s0) 0); [reflexivity|].
  rewrite pivot_foot_value. reflexivity.
Qed.

(** The head of a list sorted by decreasing floor height is a largest
    element of the list it was sorted from. *)
Lemma sorted_head_largest (legs : list Linkage) (s0 : Linkage) (rest : list Linkage) :
  sorted_reverse floor_height legs = s0 :: rest ->
  largest_floor_height s0 legs.
Proof.
  intros E.
  pose proof (sorted_reverse_perm floor_height legs) as Hperm.
  pose proof (sorted_reverse_sorted floor_height legs) as Hsorted.
  rewrite E in Hperm, Hsorted. split.
  - apply (Permutation_in _ Hperm). now left.
  - intros leg Hin. apply (Permutation_in _ (Permutation_sym Hperm)) in Hin.
    apply StronglySorted_inv in Hsorted. destruct Hsorted as [_ Hall].
    destruct Hin as [<- | Hin]; [lra|].
    rewrite Forall_forall in Hall. specialize (Hall _ Hin).
    unfold key_ge in Hall. lra.
Qed.


(** C4: on a hexapod of six legs, when [find_feet_on_ground] returns
    something other than [(None, None)], the sorted list is the legs
    in decreasing order of floor height, legs of equal floor height in
    their original order, and the feet returned are the longest prefix
    of the sorted list whose floor heights reach that of the third
    sorted leg minus 2; the pivot is the first of them. *)
Theorem feet_are_maximal_prefix (self : VirtualHexapod)
    (r : option (list Linkage) * option Linkage) :
  List.length (legs self) = 6%nat ->
  find_feet_on_ground self = inr r ->
  r <> (None, None) ->
  let sorted_legs := sorted_reverse floor_height (legs self) in
  Permutation sorted_legs (legs self) /\
  StronglySorted (key_ge floor_height) sorted_legs /\
  (forall k, of_key floor_height k sorted_legs = of_key floor_height k (legs self)) /\
  exists third feet,
    nth_error sorted_legs 2 = Some third /\
    r = (Some feet, hd_error feet) /\
    maximal_prefix (on_floor (floor_height third - 2)) feet sorted_legs.
Proof.
  intros Hlen Hr Hnot. cbv zeta.
  split; [apply sorted_reverse_perm|].
  split; [apply sorted_reverse_sorted|].
  split; [intros k; apply sorted_reverse_stable|].
  destruct (find_feet_on_ground_six self Hlen) as (s0 & s1 & s2 & rest & E & Hfind).
  rewrite Hfind in Hr. apply inr_inj in Hr.
  destruct (Rle_dec (floor_height s0) 0) as [Hle|Hgt]; [now symmetry in Hr|].
  cbv zeta in Hr. rewrite E.
  destruct (collect_feet_prefix (floor_height s2 - 2) (s0 :: s1 :: s2 :: rest) [])
    as (pre & Hpre & Hmax).
  cbn [app] in Hpre. rewrite Hpre in Hr.
  exists s2, pre. repeat split; [now symmetry | exact Hmax].
Qed.

(** C5: on a hexapod of six legs [find_feet_on_ground] returns, and
    what it returns is [(None, None)] exactly when no leg has a
    positive floor height, that is when the largest floor height of the
    six is at most 0. *)
Theorem airborne_iff_no_positive_floor_height (self : VirtualHexapod) :
  List.length (legs self) = 6%nat ->
  exists r top,
    find_feet_on_ground self = inr r /\
    largest_floor_height top (legs self) /\
    (r = (None, None) <-> floor_height top <= 0) /\
    (r = (None, None) <-> Forall (fun leg => floor_height leg <= 0) (legs self)).
Proof.
  intros Hlen.
  destruct (find_feet_on_ground_six self Hlen) as (s0 & s1 & s2 & rest & E & Hfind).
  pose proof (sorted_head_largest _ _ _ E) as [Hin Hmax].
  eexists. exists s0. split; [exact Hfind|]. split; [now split|].
  destruct (Rle_dec (floor_height s0) 0) as [Hle|Hgt].
  - split; split; trivial.
    intros _. apply Forall_forall. intros leg Hleg. specialize (Hmax _ Hleg). lra.
  - cbv zeta. split; split; try discriminate.
    + intros Hle. now elim Hgt.
    + intros Hall. rewrite Forall_forall in Hall. elim Hgt. now apply Hall.
Qed.


(* ================================================================= *)
(** ** A hexapod standing on three legs *)

(** With gamma at 90 degrees and beta at 0 the three links lie in one
    line at the height of the body: the floor height is 0. *)
Lemma stretched_floor_height (self : Linkage) (alpha : R) :
  floor_height (save_new_pose self alpha 0 90) = 0.
Proof.
  unfold floor_height, save_new_pose. cbv zeta. cbn [p3].
  replace (90 - 90) with 0 by ring.
  rewrite Ropp_0, !frame_yrotate_0, origin_wrt, wrt_zrotate. cbv zeta.
  unfold set_name, Point_init. cbn [x y z].
  unfold_arrays. ring.
Qed.

Lemma tripod_hexapod_built :
  VirtualHexapod_init 100 80 120 50 70 60 =
  inr (mkVirtualHexapod [100; 80; 120] [50; 70; 60] (Hexagon_init 50 70 60)
         [leg_n 0; leg_n 1; leg_n 2; leg_n 3; leg_n 4; leg_n 5]).
Proof. rewrite VirtualHexapod_init_returns. reflexivity. Qed.

Lemma leg_n_floor_height (i : nat) : floor_height (leg_n i) = 120.
Proof. unfold leg_n, neutral_leg. now rewrite neutral_floor_height. Qed.

Lemma stretch_floor_height (i : nat) : floor_height (stretch (leg_n i)) = 0.
Proof.
  unfold stretch, change_pose. cbv zeta.
  rewrite (or_else_nonzero 90) by lra.
  unfold leg_n, neutral_leg at 3. unfold save_new_pose at 2. cbv zeta. cbn [_beta].
  rewrite or_else_None. apply stretched_floor_height.
Qed.

Ltac decide_order :=
  repeat
    (cbn [sorted_reverse insert_reverse collect_feet app];
     match goal with
     | |- context [Rlt_dec ?u ?v] => destruct (Rlt_dec u v); [try lra | try lra]
     | |- context [Rle_dec ?u ?v] => destruct (Rle_dec u v); [try lra | try lra]
     | |- context [Rge_dec ?u ?v] => destruct (Rge_dec u v); [try lra | try lra]
     end).

(** Six legs of floor heights 0, 120, 0, 120, 0, 120: the feet are the
    legs 1, 3 and 5, in this order, and the pivot is leg 1. *)
Lemma find_feet_on_ground_alternating (self : VirtualHexapod)
    (l0 l1 l2 l3 l4 l5 : Linkage) :
  legs self = [l0; l1; l2; l3; l4; l5] ->
  floor_height l0 = 0 -> floor_height l1 = 120 -> floor_height l2 = 0 ->
  floor_height l3 = 120 -> floor_height l4 = 0 -> floor_height l5 = 120 ->
  sorted_reverse floor_height (legs self) = [l1; l3; l5; l0; l2; l4] /\
  find_feet_on_ground self = inr (Some [l1; l3; l5], Some l1).
Proof.
  intros Hlegs H0 H1 H2 H3 H4 H5.
  assert (E : sorted_reverse floor_height (legs self) = [l1; l3; l5; l0; l2; l4]).
  { rewrite Hlegs. decide_order. reflexivity. }
  split; [exact E|].
  assert (Hfeet : collect_feet (floor_height l5 - 2) [l1; l3; l5; l0; l2; l4] []
                  = [l1; l3; l5]).
  { decide_order. reflexivity. }
  assert (Hlen : List.length (legs self) = 6%nat) by now rewrite Hlegs.
  destruct (find_feet_on_ground_six self Hlen) as (s0 & s1 & s2 & rest & E' & Hfind).
  rewrite E in E'. injection E' as <- <- <- <-.
  rewrite Hfind.
  destruct (Rle_dec (floor_height l1) 0); [lra|].
  cbv zeta. rewrite Hfeet. reflexivity.
Qed.

Lemma tripod_find_feet :
  find_feet_on_ground tripod_hexapod =
  inr (Some [leg_n 1; leg_n 3; leg_n 5], Some (leg_n 1)).
Proof.
  exact (proj2 (find_feet_on_ground_alternating tripod_hexapod
                  (stretch (leg_n 0)) (leg_n 1) (stretch (leg_n 2))
                  (leg_n 3) (stretch (leg_n 4)) (leg_n 5) eq_refl
                  (stretch_floor_height 0) (leg_n_floor_height 1)
                  (stretch_floor_height 2) (leg_n_floor_height 3)
                  (stretch_floor_height 4) (leg_n_floor_height 5))).
Qed.

Lemma tripod_feet_returned :
  (Some [leg_n 1; leg_n 3; leg_n 5], Some (leg_n 1))
  <> (None : option (list Linkage), None : option Linkage).
Proof. discriminate. Qed.

(** C4 on the hexapod that stands on legs 1, 3 and 5. *)
Lemma feet_are_maximal_prefix_witness :
  List.length (legs tripod_hexapod) = 6%nat /\
  find_feet_on_ground tripod_hexapod
    = inr (Some [leg_n 1; leg_n 3; leg_n 5], Some (leg_n 1)) /\
  (let sorted_legs := sorted_reverse floor_height (legs tripod_hexapod) in
   Permutation sorted_legs (legs tripod_hexapod) /\
   StronglySorted (key_ge floor_height) sorted_legs /\
   (forall k, of_key floor_height k sorted_legs
              = of_key floor_height k (legs tripod_hexapod)) /\
   exists third feet,
     nth_error sorted_legs 2 = Some third /\
     (Some [leg_n 1; leg_n 3; leg_n 5], Some (leg_n 1)) = (Some feet, hd_error feet) /\
     maximal_prefix (on_floor (floor_height third - 2)) feet sorted_legs).
Proof.
  split; [reflexivity|]. split; [exact tripod_find_feet|].
  exact (feet_are_maximal_prefix tripod_hexapod _ eq_refl tripod_find_feet
           tripod_feet_returned).
Defined.

(** C5 on the hexapod that stands on legs 1, 3 and 5. *)
Lemma airborne_iff_no_positive_floor_height_witness :
  List.length (legs tripod_hexapod) = 6%nat /\
  exists r top,
    find_feet_on_ground tripod_hexapod = inr r /\
    largest_floor_height top (legs tripod_hexapod) /\
    (r = (None, None) <-> floor_height top <= 0) /\
    (r = (None, None)
     <-> Forall (fun leg => floor_height leg <= 0) (legs tripod_hexapod)).
Proof.
  split; [reflexivity|].
  exact (airborne_iff_no_positive_floor_height tripod_hexapod eq_refl).
Defined.


(* ================================================================= *)
(** ** Further properties of the poses, the frames and the ground contact *)


Lemma radians_opp (t : R) : radians (- t) = - radians t.
Proof. unfold radians. field. Qed.

Lemma radians_plus (t u : R) : radians (t + u) = radians t + radians u.
Proof. unfold radians. field. Qed.

Lemma radians_quarter_minus (t : R) : radians (90 - t) = PI / 2 - radians t.
Proof. unfold radians. field. Qed.

Lemma radians_180 : radians 180 = PI.
Proof. unfold radians. field. Qed.

Lemma triple_eq (a1 a2 a3 b1 b2 b3 : R) :
  a1 = b1 -> a2 = b2 -> a3 = b3 -> (a1, a2, a3) = (b1, b2, b3).
Proof. intros; subst; reflexivity. Qed.

Lemma pose_points (self : Linkage) (alpha beta gamma : R) :
  let r := save_new_pose self alpha beta gamma in
  let t := radians (_new_x_axis self + alpha) in
  let t1 := radians (- beta) in
  let t2 := radians (90 - gamma) in
  let o := _new_origin self in
  let reach2 := _a self + _b self * cos t1 in
  let reach3 := reach2 + _c self * (cos t1 * cos t2 - sin t1 * sin t2) in
  coordinates (p1 r) = (x o + _a self * cos t, y o + _a self * sin t, 0) /\
  coordinates (p2 r) = (x o + reach2 * cos t, y o + reach2 * sin t, - (_b self * sin t1)) /\
  coordinates (p3 r) =
    (x o + reach3 * cos t, y o + reach3 * sin t,
     - (_b self * sin t1) - _c self * (sin t1 * cos t2 + cos t1 * sin t2)).
Proof.
  cbv zeta. unfold save_new_pose. cbv zeta. cbn [p1 p2 p3].
  rewrite !origin_wrt, !wrt_zrotate, frame_yrotate_0. cbv zeta.
  unfold frame_yrotate_xtranslate, set_name, Point_init, coordinates.
  cbv zeta. cbn [x y z]. unfold_arrays.
  repeat split; apply triple_eq; ring.
Qed.

Lemma coordinates_inv (p : Point) (a b c : R) :
  coordinates p = (a, b, c) -> x p = a /\ y p = b /\ z p = c.
Proof. unfold coordinates. intros H. injection H as -> -> ->. repeat split. Qed.

(** X1: the points [save_new_pose] computes, in closed form.  With B and
    G the angles beta and gamma in radians and t the mount heading
    plus alpha in radians, the three points lie in the vertical plane
    through the mount origin in direction t, at the horizontal reaches
    a, a + b cos B and a + b cos B + c sin (B + G) and at the heights
    0, b sin B and b sin B - c cos (B + G).  The height of the mount
    origin does not enter. *)
Theorem forward_kinematics (self : Linkage) (alpha beta gamma : R) :
  let r := save_new_pose self alpha beta gamma in
  let t := radians (_new_x_axis self + alpha) in
  let B := radians beta in
  let G := radians gamma in
  let o := _new_origin self in
  let reach2 := _a self + _b self * cos B in
  let reach3 := reach2 + _c self * sin (B + G) in
  coordinates (p1 r) = (x o + _a self * cos t, y o + _a self * sin t, 0) /\
  coordinates (p2 r) = (x o + reach2 * cos t, y o + reach2 * sin t, _b self * sin B) /\
  coordinates (p3 r) =
    (x o + reach3 * cos t, y o + reach3 * sin t,
     _b self * sin B - _c self * cos (B + G)).
Proof.
  cbv zeta.
  destruct (pose_points self alpha beta gamma) as (H1 & H2 & H3).
  cbv zeta in H1, H2, H3. rewrite H1, H2, H3.
  rewrite radians_opp, radians_quarter_minus, cos_neg, sin_neg, cos_shift, sin_shift.
  rewrite sin_plus, cos_plus.
  repeat split; apply triple_eq; ring.
Qed.

(** X2: the floor height after a pose is c cos (B + G) - b sin B; it
    depends on b, c, beta and gamma only, not on alpha, on a or on the
    mount. *)
Theorem floor_height_closed_form (self : Linkage) (alpha beta gamma : R) :
  floor_height (save_new_pose self alpha beta gamma)
  = _c self * cos (radians beta + radians gamma) - _b self * sin (radians beta).
Proof.
  destruct (pose_points self alpha beta gamma) as (_ & _ & H3).
  cbv zeta in H3. apply coordinates_inv in H3. destruct H3 as (_ & _ & Hz).
  unfold floor_height. rewrite Hz.
  rewrite radians_opp, radians_quarter_minus, cos_neg, sin_neg, cos_shift, sin_shift.
  rewrite cos_plus. ring.
Qed.

(** X3: in every pose the links keep their lengths: p1 is at the
    horizontal distance a from the mount origin and at height 0, p2 is
    at the distance b from p1 and p3 at the distance c from p2 (squares
    of the distances). *)
Theorem link_lengths_kept (self : Linkage) (alpha beta gamma : R) :
  let r := save_new_pose self alpha beta gamma in
  let o := _new_origin self in
  (x (p1 r) - x o) * (x (p1 r) - x o) + (y (p1 r) - y o) * (y (p1 r) - y o)
    = _a self * _a self /\
  z (p1 r) = 0 /\
  dist2 (p1 r) (p2 r) = _b self * _b self /\
  dist2 (p2 r) (p3 r) = _c self * _c self.
Proof.
  cbv zeta.
  destruct (pose_points self alpha beta gamma) as (H1 & H2 & H3).
  cbv zeta in H1, H2, H3.
  apply coordinates_inv in H1, H2, H3.
  destruct H1 as (X1 & Y1 & Z1), H2 as (X2 & Y2 & Z2), H3 as (X3 & Y3 & Z3).
  unfold dist2. rewrite X1, Y1, Z1, X2, Y2, Z2, X3, Y3, Z3.
  rewrite <- cos_plus, <- sin_plus.
  pose proof (sin_cos_square (radians (_new_x_axis self + alpha))) as Ht.
  pose proof (sin_cos_square (radians (- beta))) as Hb.
  pose proof (sin_cos_square (radians (- beta) + radians (90 - gamma))) as Hg.
  clear X1 Y1 Z1 X2 Y2 Z2 X3 Y3 Z3.
  revert Ht Hb Hg.
  generalize (cos (radians (_new_x_axis self + alpha)))
             (sin (radians (_new_x_axis self + alpha)))
             (cos (radians (- beta))) (sin (radians (- beta)))
             (cos (radians (- beta) + radians (90 - gamma)))
             (sin (radians (- beta) + radians (90 - gamma))).
  intros ct st cb sb cg sg Ht Hb Hg.
  repeat split; try ring; nsatz.
Qed.

Lemma rigid_matmul (M N : mat4) :
  rigid_transform M -> rigid_transform N -> rigid_transform (matmul M N).
Proof.
  destruct M as [[m00 m01 m02 m03] [m10 m11 m12 m13] [m20 m21 m22 m23] [m30 m31 m32 m33]].
  destruct N as [[n00 n01 n02 n03] [n10 n11 n12 n13] [n20 n21 n22 n23] [n30 n31 n32 n33]].
  unfold rigid_transform, orthonormal_block, orthonormal_triple.
  unfold_arrays.
  intros (HM3 & (HMr & HMc) & DM) (HN3 & (HNr & HNc) & DN).
  injection HM3 as -> -> -> ->. injection HN3 as -> -> -> ->.
  split; [apply vec4_eq; ring|].
  split; [split|].
  - clear HMc HNc DM DN.
    destruct HMr as (A1 & A2 & A3 & A4 & A5 & A6), HNr as (C1 & C2 & C3 & C4 & C5 & C6).
    repeat split; nsatz.
  - clear HMr HNr DM DN.
    destruct HMc as (B1 & B2 & B3 & B4 & B5 & B6), HNc as (D1 & D2 & D3 & D4 & D5 & D6).
    repeat split; nsatz.
  - clear HMr HNr HMc HNc. nsatz.
Qed.

(** X4: every frame made by the builders and by products of them, such
    as frame_02 and frame_03 of [save_new_pose], is a rigid transform. *)
Theorem built_frame_rigid (F : mat4) : built_frame F -> rigid_transform F.
Proof.
  induction 1 as [theta x | theta x y | M N _ IHM _ IHN].
  - apply yrotate_rigid.
  - apply zrotate_rigid.
  - now apply rigid_matmul.
Qed.

(** X4 on a mount frame times a segment frame. *)
Lemma built_frame_rigid_witness :
  built_frame (matmul (frame_zrotate_xytranslate 45 1 2) (frame_yrotate_xtranslate 30 7)) /\
  rigid_transform (matmul (frame_zrotate_xytranslate 45 1 2) (frame_yrotate_xtranslate 30 7)).
Proof.
  assert (H : built_frame (matmul (frame_zrotate_xytranslate 45 1 2)
                                  (frame_yrotate_xtranslate 30 7)))
    by (apply built_matmul; constructor).
  split; [exact H | exact (built_frame_rigid _ H)].
Defined.

(** X5: the product of two frames about the same axis, the second
    without translation, is the frame of the sum of the angles with the
    translation of the first. *)
Theorem same_axis_rotations_add (t1 t2 x1 y1 : R) :
  matmul (frame_yrotate_xtranslate t1 x1) (frame_yrotate_xtranslate t2 0)
    = frame_yrotate_xtranslate (t1 + t2) x1 /\
  matmul (frame_zrotate_xytranslate t1 x1 y1) (frame_zrotate_xytranslate t2 0 0)
    = frame_zrotate_xytranslate (t1 + t2) x1 y1.
Proof.
  unfold frame_yrotate_xtranslate, frame_zrotate_xytranslate. cbv zeta.
  rewrite radians_plus, cos_plus, sin_plus.
  split; array_ring.
Qed.

Lemma get_point_wrt_matmul (M N : mat4) (P : Point) :
  r3 N = Vec4 0 0 0 1 ->
  get_point_wrt (get_point_wrt P N) M = get_point_wrt P (matmul M N).
Proof.
  destruct M as [[] [] [] []], N as [[] [] [] n3], P as [px py pz pn].
  cbn [r3]. intros ->.
  unfold get_point_wrt, Point_init. cbn [x y z]. unfold_arrays.
  apply point_eq; ring.
Qed.

(** X6: taking a point with respect to a built frame [N] and the result
    with respect to [M] is taking it with respect to the product of
    [M] and [N]. *)
Theorem get_point_wrt_chain (M N : mat4) (P : Point) :
  built_frame N ->
  get_point_wrt (get_point_wrt P N) M = get_point_wrt P (matmul M N).
Proof. intros HN. apply get_point_wrt_matmul. now apply built_bottom_row. Qed.

(** X6 on a segment frame followed by a mount frame. *)
Lemma get_point_wrt_chain_witness :
  built_frame (frame_yrotate_xtranslate 30 7) /\
  get_point_wrt (get_point_wrt (Point_init 1 2 3) (frame_yrotate_xtranslate 30 7))
                (frame_zrotate_xytranslate 45 1 2)
  = get_point_wrt (Point_init 1 2 3)
      (matmul (frame_zrotate_xytranslate 45 1 2) (frame_yrotate_xtranslate 30 7)).
Proof.
  split; [apply built_yrotate|].
  exact (get_point_wrt_chain _ _ _ (built_yrotate 30 7)).
Defined.

Lemma yrotate_isometry (theta d : R) (P Q : Point) :
  dist2 (get_point_wrt P (frame_yrotate_xtranslate theta d))
        (get_point_wrt Q (frame_yrotate_xtranslate theta d)) = dist2 P Q.
Proof.
  pose proof (sin_cos_square (radians theta)) as H.
  destruct P as [px py pz pn], Q as [qx qy qz qn].
  unfold dist2, get_point_wrt, frame_yrotate_xtranslate, Point_init. cbv zeta.
  cbn [x y z]. unfold_arrays.
  revert H. generalize (cos (radians theta)) (sin (radians theta)). intros c s H.
  nsatz.
Qed.

Lemma zrotate_isometry (theta dx dy : R) (P Q : Point) :
  dist2 (get_point_wrt P (frame_zrotate_xytranslate theta dx dy))
        (get_point_wrt Q (frame_zrotate_xytranslate theta dx dy)) = dist2 P Q.
Proof.
  pose proof (sin_cos_square (radians theta)) as H.
  destruct P as [px py pz pn], Q as [qx qy qz qn].
  unfold dist2, get_point_wrt, frame_zrotate_xytranslate, Point_init. cbv zeta.
  cbn [x y z]. unfold_arrays.
  revert H. generalize (cos (radians theta)) (sin (radians theta)). intros c s H.
  nsatz.
Qed.

(** X7: [get_point_wrt] through a built frame keeps the distance
    between two points. *)
Theorem get_point_wrt_isometry (F : mat4) :
  built_frame F ->
  forall P Q, dist2 (get_point_wrt P F) (get_point_wrt Q F) = dist2 P Q.
Proof.
  induction 1 as [theta d | theta dx dy | M N _ IHM HN IHN]; intros P Q.
  - apply yrotate_isometry.
  - apply zrotate_isometry.
  - rewrite <- !get_point_wrt_matmul by now apply built_bottom_row.
    now rewrite IHM, IHN.
Qed.

(** X7 on a mount frame. *)
Lemma get_point_wrt_isometry_witness :
  built_frame (frame_zrotate_xytranslate 45 1 2) /\
  forall P Q,
    dist2 (get_point_wrt P (frame_zrotate_xytranslate 45 1 2))
          (get_point_wrt Q (frame_zrotate_xytranslate 45 1 2)) = dist2 P Q.
Proof.
  split; [apply built_zrotate|].
  exact (get_point_wrt_isometry _ (built_zrotate 45 1 2)).
Defined.

Lemma or_else_absorbs (v : option R) (previous : R) :
  or_else v (or_else v previous) = or_else v previous.
Proof.
  destruct v as [w|]; [|reflexivity].
  unfold or_else. destruct (Req_dec_T w 0); reflexivity.
Qed.

Lemma or_else_keeps_nonzero (v : option R) (previous : R) :
  previous <> 0 -> or_else v previous <> 0.
Proof.
  intros Hp. destruct v as [w|]; [|exact Hp].
  unfold or_else. destruct (Req_dec_T w 0); assumption.
Qed.

(** X8: calling [change_pose] a second time with the same arguments, or
    with no argument at all, changes nothing. *)
Theorem change_pose_idempotent (self : Linkage) (alpha beta gamma : option R) :
  change_pose (change_pose self alpha beta gamma) alpha beta gamma
    = change_pose self alpha beta gamma /\
  change_pose (change_pose self alpha beta gamma) None None None
    = change_pose self alpha beta gamma.
Proof.
  unfold change_pose, save_new_pose. cbv zeta.
  cbn [_alpha _beta _gamma _a _b _c _new_origin _new_x_axis linkage_name].
  rewrite !or_else_absorbs, !or_else_None. split; reflexivity.
Qed.

(** X9: when the three angles given are all different from 0, the pose
    after [change_pose] is the one [save_new_pose] computes from them
    on the original linkage, whatever [change_pose] was called with
    before. *)
Theorem change_pose_overwrites (self : Linkage) (a1 b1 g1 : option R) (a2 b2 g2 : R) :
  a2 <> 0 -> b2 <> 0 -> g2 <> 0 ->
  change_pose (change_pose self a1 b1 g1) (Some a2) (Some b2) (Some g2)
    = save_new_pose self a2 b2 g2.
Proof.
  intros Ha Hb Hg. unfold change_pose. cbv zeta.
  rewrite !or_else_nonzero by assumption. reflexivity.
Qed.

(** X9 on leg 0 of the hexapod, after an earlier call. *)
Lemma change_pose_overwrites_witness :
  10 <> 0 /\ 20 <> 0 /\ 30 <> 0 /\
  change_pose (change_pose (leg_n 0) (Some 5) None (Some 0)) (Some 10) (Some 20) (Some 30)
    = save_new_pose (leg_n 0) 10 20 30.
Proof.
  assert (H1 : 10 <> 0) by lra.
  assert (H2 : 20 <> 0) by lra.
  assert (H3 : 30 <> 0) by lra.
  split; [exact H1|]. split; [exact H2|]. split; [exact H3|].
  exact (change_pose_overwrites (leg_n 0) (Some 5) None (Some 0) 10 20 30 H1 H2 H3).
Defined.

(** X10: an angle that is not 0 cannot be brought back to 0 by
    [change_pose], whatever the arguments. *)
Theorem change_pose_cannot_zero (self : Linkage) (alpha beta gamma : option R) :
  let r := change_pose self alpha beta gamma in
  (_alpha self <> 0 -> _alpha r <> 0) /\
  (_beta self <> 0 -> _beta r <> 0) /\
  (_gamma self <> 0 -> _gamma r <> 0).
Proof.
  cbv zeta. unfold change_pose, save_new_pose. cbv zeta. cbn [_alpha _beta _gamma].
  repeat split; apply or_else_keeps_nonzero.
Qed.

(** X10 on a leg at the angles 10, 20, 30, asked to go to 0, 0, 0. *)
Lemma change_pose_cannot_zero_witness :
  let self := save_new_pose (leg_n 0) 10 20 30 in
  let r := change_pose self (Some 0) (Some 0) (Some 0) in
  _alpha r <> 0 /\ _beta r <> 0 /\ _gamma r <> 0.
Proof.
  cbv zeta.
  destruct (change_pose_cannot_zero (save_new_pose (leg_n 0) 10 20 30)
              (Some 0) (Some 0) (Some 0)) as (Ha & Hb & Hg).
  split; [|split].
  - apply Ha. cbn [_alpha save_new_pose]. lra.
  - apply Hb. cbn [_beta save_new_pose]. lra.
  - apply Hg. cbn [_gamma save_new_pose]. lra.
Defined.

Lemma sorted_reverse_constant {A : Type} (key : A -> R) (k : R) (xs : list A) :
  Forall (fun v => key v = k) xs -> sorted_reverse key xs = xs.
Proof.
  induction 1 as [|v rest Hv Hrest IH]; cbn [sorted_reverse]; [reflexivity|].
  rewrite IH. destruct Hrest as [|w rest' Hw _]; cbn [insert_reverse]; [reflexivity|].
  destruct (Rlt_dec (key v) (key w)); [lra | reflexivity].
Qed.

Lemma collect_feet_all (threshold : R) (sorted_legs feet_on_floor : list Linkage) :
  Forall (on_floor threshold) sorted_legs ->
  collect_feet threshold sorted_legs feet_on_floor = feet_on_floor ++ sorted_legs.
Proof.
  intros H. revert feet_on_floor.
  induction H as [|leg rest Hleg _ IH]; intros acc; cbn [collect_feet].
  - now rewrite app_nil_r.
  - destruct (Rge_dec (floor_height leg) threshold) as [_|Hn]; [|now elim Hn].
    rewrite IH, <- app_assoc. reflexivity.
Qed.

Lemma fresh_legs (a b c f m s : R) :
  map (fun '(point, theta, name) => neutral_leg a b c theta point name)
      (zip3 (vertices (Hexagon_init f m s)) NEW_X_AXES VERTEX_NAMES)
  = [ neutral_leg a b c 0 (Point_init m 0 0) "right-middle";
      neutral_leg a b c 45 (Point_init f s 0) "right-front";
      neutral_leg a b c 135 (Point_init (- f) s 0) "left-front";
      neutral_leg a b c 180 (Point_init (- m) 0 0) "left-middle";
      neutral_leg a b c 225 (Point_init (- f) (- s) 0) "left-back";
      neutral_leg a b c 315 (Point_init f (- s) 0) "right-back" ].
Proof. reflexivity. Qed.

Lemma fresh_legs_floor_height (a b c f m s : R) :
  Forall (fun leg => floor_height leg = c)
    (map (fun '(point, theta, name) => neutral_leg a b c theta point name)
         (zip3 (vertices (Hexagon_init f m s)) NEW_X_AXES VERTEX_NAMES)).
Proof.
  rewrite fresh_legs. repeat constructor; apply neutral_floor_height.
Qed.

(** X11: the constructor mounts leg [i] at vertex [i] of the body, with
    heading [NEW_X_AXES[i]] and name [VERTEX_NAMES[i]], with the given
    lengths, at the neutral pose; its floor height is c. *)
Theorem hexapod_legs_mounted (a b c f m s : R) :
  exists h,
    VirtualHexapod_init a b c f m s = inr h /\
    body h = Hexagon_init f m s /\
    forall i leg,
      nth_error (legs h) i = Some leg ->
      nth_error (vertices (body h)) i = Some (p0 leg) /\
      _new_origin leg = p0 leg /\
      nth_error NEW_X_AXES i = Some (_new_x_axis leg) /\
      option_map Some (nth_error VERTEX_NAMES i) = Some (linkage_name leg) /\
      (_a leg, _b leg, _c leg) = (a, b, c) /\
      (_alpha leg, _beta leg, _gamma leg) = (0, 0, 0) /\
      floor_height leg = c.
Proof.
  eexists. split; [apply VirtualHexapod_init_returns|].
  split; [reflexivity|].
  intros i leg H. cbn [legs body] in *. rewrite fresh_legs in H.
  do 6 (destruct i as [|i];
        [ cbn [nth_error] in H; injection H as <-;
          do 6 (split; [reflexivity|]); apply neutral_floor_height |]).
  destruct i; discriminate H.
Qed.

(** X12: on a hexapod as the constructor returns it,
    [find_feet_on_ground] returns [(None, None)] when c <= 0, and all
    six legs in their original order, with leg 0 as the pivot, when
    0 < c. *)
Theorem fresh_hexapod_feet (a b c f m s : R) :
  exists h,
    VirtualHexapod_init a b c f m s = inr h /\
    (c <= 0 -> find_feet_on_ground h = inr (None, None)) /\
    (0 < c -> find_feet_on_ground h = inr (Some (legs h), nth_error (legs h) 0)).
Proof.
  eexists. split; [apply VirtualHexapod_init_returns|].
  set (h := mkVirtualHexapod _ _ _ _).
  pose proof (fresh_legs_floor_height a b c f m s) as Hall.
  change (Forall (fun leg => floor_height leg = c) (legs h)) in Hall.
  assert (Hlen : List.length (legs h) = 6%nat) by reflexivity.
  destruct (find_feet_on_ground_six h Hlen) as (s0 & s1 & s2 & rest & E & Hfind).
  rewrite (sorted_reverse_constant floor_height c _ Hall) in E.
  rewrite Hfind. clear Hfind. rewrite E in Hall |- *.
  assert (H0 : floor_height s0 = c) by now inversion Hall.
  assert (H2 : floor_height s2 = c).
  { apply Forall_inv_tail, Forall_inv_tail, Forall_inv in Hall. exact Hall. }
  rewrite H0, H2.
  split; intros Hc; destruct (Rle_dec c 0) as [Hle|Hgt]; try lra; [reflexivity|].
  cbv zeta. rewrite collect_feet_all; [reflexivity|].
  eapply Forall_impl; [|exact Hall].
  intros leg Hleg. unfold on_floor. cbv beta in Hleg. rewrite Hleg. lra.
Qed.

(** X11 on leg 1 of the hexapod with a=100, b=80, c=120, f=50, m=70, s=60. *)
Lemma hexapod_legs_mounted_witness :
  exists h,
    VirtualHexapod_init 100 80 120 50 70 60 = inr h /\
    nth_error (legs h) 1 = Some (leg_n 1) /\
    nth_error (vertices (body h)) 1 = Some (p0 (leg_n 1)) /\
    nth_error NEW_X_AXES 1 = Some (_new_x_axis (leg_n 1)) /\
    floor_height (leg_n 1) = 120.
Proof.
  destruct (hexapod_legs_mounted 100 80 120 50 70 60) as (h & Hh & _ & Hlegs).
  exists h. split; [exact Hh|].
  rewrite tripod_hexapod_built in Hh. apply inr_inj in Hh. subst h.
  destruct (Hlegs 1%nat (leg_n 1) eq_refl) as (Hv & _ & Hx & _ & _ & _ & Hf).
  split; [reflexivity|]. split; [exact Hv|]. split; [exact Hx | exact Hf].
Defined.

(** X12 with c = 120 and with c = 0. *)
Lemma fresh_hexapod_feet_witness :
  (0 < 120 /\
   exists h,
     VirtualHexapod_init 100 80 120 50 70 60 = inr h /\
     find_feet_on_ground h = inr (Some (legs h), nth_error (legs h) 0)) /\
  (0 <= 0 /\
   exists h,
     VirtualHexapod_init 100 80 0 50 70 60 = inr h /\
     find_feet_on_ground h = inr (None, None)).
Proof.
  split.
  - assert (Hc : 0 < 120) by lra. split; [exact Hc|].
    destruct (fresh_hexapod_feet 100 80 120 50 70 60) as (h & Hh & _ & Hpos).
    exists h. split; [exact Hh | exact (Hpos Hc)].
  - assert (Hc : 0 <= 0) by lra. split; [exact Hc|].
    destruct (fresh_hexapod_feet 100 80 0 50 70 60) as (h & Hh & Hneg & _).
    exists h. split; [exact Hh | exact (Hneg Hc)].
Defined.

(** [find_feet_on_ground] on any list of legs. *)
Lemma find_feet_on_ground_unfold (self : VirtualHexapod) :
  find_feet_on_ground self =
  let sorted_legs := sorted_reverse floor_height (legs self) in
  match sorted_legs with
  | [] => inl IndexError
  | lowest :: _ =>
      if Rle_dec (floor_height lowest) 0 then inr (None, None)
      else
        match nth_error sorted_legs 2 with
        | None => inl IndexError
        | Some third =>
            let feet_on_floor :=
              collect_feet (floor_height third - 2) sorted_legs [] in
            inr (Some feet_on_floor, hd_error feet_on_floor)
        end
  end.
Proof.
  unfold find_feet_on_ground. cbv zeta.
  change (sorted_reverse (fun leg => floor_height leg) (legs self))
    with (sorted_reverse floor_height (legs self)).
  destruct (sorted_reverse floor_height (legs self)) as [|s0 [|s1 [|s2 rest]]];
    [reflexivity | | |];
    unfold subscript; cbn [nth_error bind ret Monad_either];
    (destruct (Rle_dec (floor_height s0) 0); [reflexivity|]);
    try reflexivity.
  rewrite pivot_foot_value. reflexivity.
Qed.

Lemma collect_feet_filter (threshold : R) (sorted_legs feet_on_floor : list Linkage) :
  StronglySorted (key_ge floor_height) sorted_legs ->
  collect_feet threshold sorted_legs feet_on_floor
  = feet_on_floor ++ filter (reaches threshold) sorted_legs.
Proof.
  intros H. revert feet_on_floor.
  induction H as [|leg rest _ IH Hleg]; intros acc; cbn [collect_feet filter].
  - now rewrite app_nil_r.
  - unfold reaches at 1.
    destruct (Rge_dec (floor_height leg) threshold) as [Hge|Hlt].
    + rewrite IH, <- app_assoc. reflexivity.
    + replace (filter (reaches threshold) rest) with (@nil Linkage);
        [now rewrite app_nil_r|].
      symmetry. clear IH. induction Hleg as [|w rest' Hw _ IH']; [reflexivity|].
      cbn [filter]. unfold reaches at 1. unfold key_ge in Hw.
      destruct (Rge_dec (floor_height w) threshold); [lra | exact IH'].
Qed.




(** X14: because the legs are sorted, the loop that breaks at the first
    failure collects the same feet as a filter: a leg is among the feet
    returned exactly when its floor height reaches that of the third
    sorted leg minus 2. *)
Theorem feet_are_legs_in_band (self : VirtualHexapod)
    (feet : list Linkage) (pivot : option Linkage) :
  find_feet_on_ground self = inr (Some feet, pivot) ->
  let sorted_legs := sorted_reverse floor_height (legs self) in
  exists third,
    nth_error sorted_legs 2 = Some third /\
    feet = filter (reaches (floor_height third - 2)) sorted_legs /\
    forall leg,
      In leg feet <->
      In leg (legs self) /\ floor_height leg >= floor_height third - 2.
Proof.
  rewrite find_feet_on_ground_unfold. cbv zeta.
  pose proof (sorted_reverse_perm floor_height (legs self)) as Hperm.
  pose proof (sorted_reverse_sorted floor_height (legs self)) as Hsorted.
  destruct (sorted_reverse floor_height (legs self)) as [|s0 rest]; [discriminate|].
  destruct (Rle_dec (floor_height s0) 0); [discriminate|].
  destruct (nth_error (s0 :: rest) 2) as [third|]; [|discriminate].
  intros H. apply inr_inj in H.
  rewrite (collect_feet_filter _ _ [] Hsorted) in H. cbn [app] in H.
  assert (Hfeet : feet = filter (reaches (floor_height third - 2)) (s0 :: rest))
    by congruence.
  exists third. split; [reflexivity|]. split; [exact Hfeet|].
  intros leg. rewrite Hfeet, filter_In. unfold reaches.
  split.
  - intros [Hin Hr]. split; [now apply (Permutation_in _ Hperm)|].
    destruct (Rge_dec (floor_height leg) (floor_height third - 2));
      [assumption | discriminate].
  - intros [Hin Hr]. split; [now apply (Permutation_in _ (Permutation_sym Hperm))|].
    destruct (Rge_dec (floor_height leg) (floor_height third - 2));
      [reflexivity | contradiction].
Qed.

(** X14 on the hexapod that stands on legs 1, 3 and 5. *)
Lemma feet_are_legs_in_band_witness :
  find_feet_on_ground tripod_hexapod
    = inr (Some [leg_n 1; leg_n 3; leg_n 5], Some (leg_n 1)) /\
  (let sorted_legs := sorted_reverse floor_height (legs tripod_hexapod) in
   exists third,
     nth_error sorted_legs 2 = Some third /\
     [leg_n 1; leg_n 3; leg_n 5] = filter (reaches (floor_height third - 2)) sorted_legs /\
     forall leg,
       In leg [leg_n 1; leg_n 3; leg_n 5] <->
       In leg (legs tripod_hexapod) /\ floor_height leg >= floor_height third - 2).
Proof.
  split; [exact tripod_find_feet|].
  exact (feet_are_legs_in_band tripod_hexapod _ _ tripod_find_feet).
Defined.



Lemma list3_eq {A : Type} (u0 u1 u2 v0 v1 v2 : A) :
  u0 = v0 -> u1 = v1 -> u2 = v2 -> [u0; u1; u2] = [v0; v1; v2].
Proof. intros; subst; reflexivity. Qed.

(** X17: the last three vertices of the hexagon are opposite the first
    three, the last three mount headings are the first three plus 180,
    and the head is the midpoint of the two front vertices. *)
Theorem hexagon_point_symmetric (f m s : R) :
  let H := Hexagon_init f m s in
  map coordinates (skipn 3 (vertices H))
    = map (fun p => opposite (coordinates p)) (firstn 3 (vertices H)) /\
  skipn 3 NEW_X_AXES = map (fun t => t + 180) (firstn 3 NEW_X_AXES) /\
  (forall v1 v2,
     nth_error (vertices H) 1 = Some v1 ->
     nth_error (vertices H) 2 = Some v2 ->
     coordinates (head H) = ((x v1 + x v2) / 2, (y v1 + y v2) / 2, (z v1 + z v2) / 2)).
Proof.
  cbv zeta. unfold Hexagon_init, NEW_X_AXES, Point_init, coordinates, opposite.
  cbn [vertices head skipn firstn map nth_error x y z].
  split; [|split].
  - apply list3_eq; apply triple_eq; ring.
  - apply list3_eq; ring.
  - intros v1 v2 [= <-] [= <-]. cbn [x y z]. apply triple_eq; field.
Qed.

(** X17, the head, for f=1, m=2, s=3. *)
Lemma hexagon_point_symmetric_witness :
  coordinates (head (Hexagon_init 1 2 3)) = ((1 + - (1)) / 2, (3 + 3) / 2, (0 + 0) / 2).
Proof.
  destruct (hexagon_point_symmetric 1 2 3) as (_ & _ & Hhead).
  exact (Hhead (Point_init 1 3 0) (Point_init (- (1)) 3 0) eq_refl eq_refl).
Defined.

Lemma half_turn (t : R) :
  cos (radians (t + 180)) = - cos (radians t) /\
  sin (radians (t + 180)) = - sin (radians t).
Proof. rewrite radians_plus, radians_180. split; [apply neg_cos | apply neg_sin]. Qed.

Lemma neutral_leg_toe (a b c theta : R) (point : Point) (name : string) :
  coordinates (toe (neutral_leg a b c theta point name))
  = (x point + (a + b) * cos (radians theta),
     y point + (a + b) * sin (radians theta), - c).
Proof.
  unfold toe, neutral_leg.
  destruct (neutral_pose_points
              (store_linkage_attributes (blank_linkage (Some name)) a b c theta point))
    as (_ & _ & H3).
  cbv zeta in H3. rewrite H3.
  unfold store_linkage_attributes. cbn [_a _b _c _new_origin _new_x_axis].
  now rewrite Rplus_0_r.
Qed.

(** X18: in a hexapod as the constructor returns it, the toes of legs 3,
    4, 5 are opposite the toes of legs 0, 1, 2, at the same height. *)
Theorem neutral_stance_symmetric (a b c f m s : R) :
  exists h,
    VirtualHexapod_init a b c f m s = inr h /\
    map (fun leg => coordinates (toe leg)) (skipn 3 (legs h))
    = map (fun leg => opposite (coordinates (toe leg))) (firstn 3 (legs h)).
Proof.
  eexists. split; [apply VirtualHexapod_init_returns|].
  cbn [legs]. rewrite fresh_legs. cbn [skipn firstn map].
  rewrite !neutral_leg_toe. unfold opposite, Point_init. cbn [x y].
  replace 180 with (0 + 180) by ring.
  replace 225 with (45 + 180) by ring.
  replace 315 with (135 + 180) by ring.
  destruct (half_turn 0) as [-> ->].
  destruct (half_turn 45) as [-> ->].
  destruct (half_turn 135) as [-> ->].
  apply list3_eq; apply triple_eq; ring.
Qed.

Lemma sorted_keys (legs : list Linkage) :
  StronglySorted (key_ge floor_height) legs ->
  StronglySorted Rge (map floor_height legs).
Proof.
  induction 1 as [|leg rest _ IH Hleg]; cbn [map]; constructor; [exact IH|].
  apply Forall_map. exact Hleg.
Qed.

(** Two lists of numbers in decreasing order with the same elements
    are the same list. *)
Lemma decreasing_unique (ks1 ks2 : list R) :
  StronglySorted Rge ks1 -> StronglySorted Rge ks2 ->
  Permutation ks1 ks2 -> ks1 = ks2.
Proof.
  intros H1. revert ks2.
  induction H1 as [|k1 rest1 _ IH Hk1]; intros ks2 H2 Hperm.
  - apply Permutation_nil in Hperm. now subst.
  - destruct H2 as [|k2 rest2 H2 Hk2].
    + apply Permutation_sym, Permutation_nil in Hperm. discriminate.
    + assert (Hk : k1 = k2).
      { assert (In k2 (k1 :: rest1))
          by (apply (Permutation_in _ (Permutation_sym Hperm)); now left).
        assert (In k1 (k2 :: rest2))
          by (apply (Permutation_in _ Hperm); now left).
        rewrite Forall_forall in Hk1, Hk2.
        destruct H as [->|Hin2]; [reflexivity|].
        destruct H0 as [<-|Hin1]; [reflexivity|].
        specialize (Hk1 _ Hin2). specialize (Hk2 _ Hin1). lra. }
      subst k2. f_equal. apply IH; [exact H2|].
      now apply Permutation_cons_inv with k1.
Qed.

Lemma sorted_reverse_keys (legs1 legs2 : list Linkage) :
  Permutation legs1 legs2 ->
  map floor_height (sorted_reverse floor_height legs1)
  = map floor_height (sorted_reverse floor_height legs2).
Proof.
  intros Hperm. apply decreasing_unique.
  - apply sorted_keys, sorted_reverse_sorted.
  - apply sorted_keys, sorted_reverse_sorted.
  - apply Permutation_map.
    rewrite (sorted_reverse_perm floor_height legs1), Hperm.
    symmetry. apply sorted_reverse_perm.
Qed.

Lemma filter_perm {A : Type} (keep : A -> bool) (xs ys : list A) :
  Permutation xs ys -> Permutation (filter keep xs) (filter keep ys).
Proof.
  induction 1 as [|v xs ys _ IH|v w xs|xs ys zs _ IH1 _ IH2]; cbn [filter].
  - constructor.
  - destruct (keep v); [now constructor | exact IH].
  - destruct (keep v), (keep w); try reflexivity. apply perm_swap.
  - now transitivity (filter keep ys).
Qed.

(** X16: two hexapods with the same legs in a different order get the
    same outcome from [find_feet_on_ground]: both raise, or both return
    [(None, None)], or both return the same feet up to their order and
    pivots of the same floor height. *)
Theorem feet_independent_of_leg_order (h1 h2 : VirtualHexapod) :
  Permutation (legs h1) (legs h2) ->
  match find_feet_on_ground h1, find_feet_on_ground h2 with
  | inr (Some feet1, Some pivot1), inr (Some feet2, Some pivot2) =>
      Permutation feet1 feet2 /\ floor_height pivot1 = floor_height pivot2
  | inr (None, None), inr (None, None) => True
  | inl IndexError, inl IndexError => True
  | _, _ => False
  end.
Proof.
  intros Hperm.
  rewrite !find_feet_on_ground_unfold. cbv zeta.
  pose proof (sorted_reverse_keys _ _ Hperm) as Hkeys.
  pose proof (sorted_reverse_sorted floor_height (legs h1)) as Hs1.
  pose proof (sorted_reverse_sorted floor_height (legs h2)) as Hs2.
  assert (Hp : Permutation (sorted_reverse floor_height (legs h1))
                           (sorted_reverse floor_height (legs h2))).
  { rewrite (sorted_reverse_perm floor_height (legs h1)), Hperm.
    symmetry. apply sorted_reverse_perm. }
  assert (H2 : option_map floor_height (nth_error (sorted_reverse floor_height (legs h1)) 2)
               = option_map floor_height (nth_error (sorted_reverse floor_height (legs h2)) 2))
    by now rewrite <- !nth_error_map, Hkeys.
  destruct (sorted_reverse floor_height (legs h1)) as [|s0 rest1];
    destruct (sorted_reverse floor_height (legs h2)) as [|t0 rest2];
    try discriminate Hkeys; [exact I|].
  cbn [map] in Hkeys. injection Hkeys as Hk0 _. rewrite <- Hk0.
  destruct (Rle_dec (floor_height s0) 0); [exact I|].
  destruct (nth_error (s0 :: rest1) 2) as [third1|] eqn:E1;
    destruct (nth_error (t0 :: rest2) 2) as [third2|] eqn:E2;
    try discriminate H2; [|exact I].
  cbn [option_map] in H2. injection H2 as H2. rewrite <- H2.
  rewrite (collect_feet_filter _ _ [] Hs1), (collect_feet_filter _ _ [] Hs2).
  cbn [app].
  assert (Hthird : floor_height s0 >= floor_height third1).
  { apply nth_error_In in E1. destruct E1 as [<- | Hin]; [lra|].
    apply StronglySorted_inv in Hs1. destruct Hs1 as [_ Hall].
    rewrite Forall_forall in Hall. exact (Hall _ Hin). }
  pose proof (filter_perm (reaches (floor_height third1 - 2)) _ _ Hp) as Hfeet.
  cbn [filter] in Hfeet |- *.
  assert (Hr1 : reaches (floor_height third1 - 2) s0 = true).
  { unfold reaches.
    destruct (Rge_dec (floor_height s0) (floor_height third1 - 2)); [reflexivity | lra]. }
  assert (Hr2 : reaches (floor_height third1 - 2) t0 = true).
  { unfold reaches. rewrite <- Hk0.
    destruct (Rge_dec (floor_height s0) (floor_height third1 - 2)); [reflexivity | lra]. }
  rewrite Hr1, Hr2 in Hfeet |- *. cbn [hd_error].
  split; [exact Hfeet | exact Hk0].
Qed.

(** X16 on the hexapod that stands on legs 1, 3 and 5, and the same
    with its first two legs exchanged. *)
Lemma feet_independent_of_leg_order_witness :
  let turned :=
    mkVirtualHexapod [100; 80; 120] [50; 70; 60] (Hexagon_init 50 70 60)
      [leg_n 1; stretch (leg_n 0); stretch (leg_n 2);
       leg_n 3; stretch (leg_n 4); leg_n 5] in
  Permutation (legs tripod_hexapod) (legs turned) /\
  match find_feet_on_ground tripod_hexapod, find_feet_on_ground turned with
  | inr (Some feet1, Some pivot1), inr (Some feet2, Some pivot2) =>
      Permutation feet1 feet2 /\ floor_height pivot1 = floor_height pivot2
  | inr (None, None), inr (None, None) => True
  | inl IndexError, inl IndexError => True
  | _, _ => False
  end.
Proof.
  cbv zeta.
  assert (H : Permutation (legs tripod_hexapod)
                [leg_n 1; stretch (leg_n 0); stretch (leg_n 2);
                 leg_n 3; stretch (leg_n 4); leg_n 5]) by apply perm_swap.
  split; [exact H|].
  exact (feet_independent_of_leg_order tripod_hexapod
           (mkVirtualHexapod [100; 80; 120] [50; 70; 60] (Hexagon_init 50 70 60)
              [leg_n 1; stretch (leg_n 0); stretch (leg_n 2);
               leg_n 3; stretch (leg_n 4); leg_n 5]) H).
Defined.
